(** * Smart Essay Agent: the file-name sanitizer and the form shell of [main.py]

    A Python [str] is a sequence of Unicode code points and is modelled as a
    list of [N]; [bytes] is a list of [Byte.byte].  Exceptions are values of
    [exn], and a computation that may raise returns a [result]. *)

From Stdlib Require Import List NArith Bool Arith Lia.
From Stdlib Require Import Strings.String Strings.Ascii Strings.Byte.
From Stdlib Require Import Numbers.DecimalString.
Import ListNotations.

Open Scope N_scope.

(** ** Strings, bytes and exceptions *)

Definition str := list N.
Definition bytes := list byte.

(** The code points of an ASCII literal. *)
Definition lit (s : string) : str := map N_of_ascii (list_ascii_of_string s).

Inductive exn : Type :=
| UnicodeDecodeError (codec : string) (b : byte) (pos : nat)
| Exception (text : str).

Inductive result (A : Type) : Type :=
| Ok (a : A)
| Raise (e : exn).

Arguments Ok {A} a.
Arguments Raise {A} e.

Definition bind {A B : Type} (m : result A) (k : A -> result B) : result B :=
  match m with
  | Ok a => k a
  | Raise e => Raise e
  end.

Notation "x <- m ;; k" := (bind m (fun x => k))
  (at level 61, m at next level, right associativity).

(** ** The Unicode character database

    [unicodedata], [re] and [str.strip] read the Unicode character database.
    Its ASCII rows are written out below; the rows of the code points from
    128 on are the fields of a [UnicodeData] value, over which the
    development is parametric. *)

Record UnicodeData : Type := {
  (* full compatibility decomposition of a code point (Hangul included) *)
  uni_decomposition : N -> list N;
  (* canonical combining class *)
  uni_combining : N -> N;
  (* str.isalnum on a single code point *)
  uni_isalnum : N -> bool;
  (* str.isspace on a single code point *)
  uni_isspace : N -> bool
}.

Definition is_ascii (c : N) : bool := c <? 128.

Definition between (lo hi c : N) : bool := (lo <=? c) && (c <=? hi).

Definition ascii_isalnum (c : N) : bool :=
  between 48 57 c || between 65 90 c || between 97 122 c.

(* \t \n \v \f \r, the separators FS GS RS US, and the space *)
Definition ascii_isspace (c : N) : bool :=
  between 9 13 c || between 28 32 c.

Section Sanitizer.

Variable ucd : UnicodeData.

Definition decomposition (c : N) : list N :=
  if is_ascii c then [c] else uni_decomposition ucd c.

Definition combining (c : N) : N :=
  if is_ascii c then 0 else uni_combining ucd c.

Definition isalnum (c : N) : bool :=
  if is_ascii c then ascii_isalnum c else uni_isalnum ucd c.

Definition isspace (c : N) : bool :=
  if is_ascii c then ascii_isspace c else uni_isspace ucd c.

(** *** [unicodedata.normalize('NFKD', s)]

    Every code point is replaced by its full compatibility decomposition,
    then each code point with a non-zero combining class is moved back over
    the preceding code points of a greater class.  [bubble] takes the already
    ordered prefix in reverse. *)

Fixpoint bubble (c : N) (before : list N) : list N :=
  match before with
  | [] => [c]
  | d :: r =>
      if (0 <? combining c) && (combining c <? combining d)
      then d :: bubble c r
      else c :: d :: r
  end.

Definition canonical_order (s : str) : str :=
  rev (fold_left (fun acc c => bubble c acc) s []).

Definition normalize_NFKD (s : str) : str :=
  canonical_order (flat_map decomposition s).

(** *** [s.encode('ascii', 'ignore')] and [b.decode('ascii')] *)

Definition encode_ascii_ignore (s : str) : bytes :=
  flat_map (fun c =>
    if is_ascii c
    then match Byte.of_N c with Some b => [b] | None => [] end
    else []) s.

Fixpoint decode_ascii_from (pos : nat) (b : bytes) : result str :=
  match b with
  | [] => Ok []
  | x :: t =>
      if is_ascii (Byte.to_N x)
      then s <- decode_ascii_from (S pos) t ;; Ok (Byte.to_N x :: s)
      else Raise (UnicodeDecodeError "ascii" x pos)
  end.

Definition decode_ascii (b : bytes) : result str := decode_ascii_from 0 b.

(** *** The three shapes of [re.sub] and [str.strip] that the code uses

    A character class is a predicate on code points.  [re_sub_class] is
    [re.sub('[...]', repl, s)]: every code point of the class is replaced.
    [re_sub_class_plus] is [re.sub('[...]+', repl, s)]: every maximal run of
    code points of the class is replaced once; [in_run] tells that the
    previous code point belonged to the run being replaced. *)

Definition re_sub_class (cls : N -> bool) (repl : str) (s : str) : str :=
  flat_map (fun c => if cls c then repl else [c]) s.

Fixpoint re_sub_run (cls : N -> bool) (repl : str) (in_run : bool) (s : str)
  : str :=
  match s with
  | [] => []
  | c :: t =>
      if cls c
      then (if in_run then [] else repl) ++ re_sub_run cls repl true t
      else c :: re_sub_run cls repl false t
  end.

Definition re_sub_class_plus (cls : N -> bool) (repl : str) (s : str) : str :=
  re_sub_run cls repl false s.

Fixpoint lstrip (s : str) : str :=
  match s with
  | [] => []
  | c :: t => if isspace c then lstrip t else s
  end.

Definition rstrip (s : str) : str := rev (lstrip (rev s)).

Definition strip (s : str) : str := rstrip (lstrip s).

(** *** The character classes of [sanitize_filename] *)

Definition hyphen : N := 45.
Definition underscore : N := 95.

(* \w *)
Definition word (c : N) : bool := isalnum c || (c =? underscore).

(* [\w\s-] : what step 2 keeps *)
Definition retained (c : N) : bool := word c || isspace c || (c =? hyphen).

(* [^\w\s-] *)
Definition special (c : N) : bool := negb (retained c).

(* [-\s] *)
Definition separator (c : N) : bool := (c =? hyphen) || isspace c.

(* the nine characters of the class of step 4: < > : double quote / \ | ? * *)
Definition windows_illegal (c : N) : bool :=
  existsb (N.eqb c) [60; 62; 58; 34; 47; 92; 124; 63; 42].

(** *** [sanitize_filename] *)

Definition step1 (filename : str) : result str :=
  decode_ascii (encode_ascii_ignore (normalize_NFKD filename)).

Definition step2 (filename : str) : str :=
  strip (re_sub_class special [] filename).

Definition step3 (filename : str) : str :=
  re_sub_class_plus separator [underscore] filename.

Definition step4 (filename : str) : str :=
  re_sub_class windows_illegal [] filename.

Definition sanitize_filename (filename : str) : result str :=
  filename <- step1 filename ;;
  let filename := step2 filename in
  let filename := step3 filename in
  let filename := step4 filename in
  Ok (firstn 50 filename).

(** The pipeline of the specification with its step 4 left out. *)
Definition sanitize_without_step4 (filename : str) : result str :=
  filename <- step1 filename ;;
  let filename := step2 filename in
  let filename := step3 filename in
  Ok (firstn 50 filename).

(** What step 1 leaves of the input: the ASCII code points of the
    decompositions, in their order. *)
Definition ascii_part (s : str) : str :=
  filter is_ascii (flat_map decomposition s).

(** The output alphabet [A-Za-z0-9_]. *)
Definition safe (c : N) : bool := ascii_isalnum c || (c =? underscore).

(** A code point is removable when steps 1 and 2 can leave nothing of it:
    each code point of its decomposition is outside ASCII (step 1 drops it),
    outside [\w\s-] (the substitution of step 2 drops it), or whitespace
    (the strip of step 2 drops it at the ends). *)
Definition removable (c : N) : bool :=
  forallb (fun d => negb (is_ascii d) || special d || isspace d)
    (decomposition c).

End Sanitizer.

(** ** An excerpt of the character database

    The rows of UnicodeData.txt for the Latin-1 Supplement block and for the
    combining marks its decompositions use.  Code points outside the excerpt
    are given no decomposition, class 0 and no property. *)

Definition latin1_decomposition (c : N) : list N :=
  match c with
  | 160 => [32] | 168 => [32; 776] | 170 => [97] | 175 => [32; 772]
  | 178 => [50] | 179 => [51] | 180 => [32; 769] | 181 => [956]
  | 184 => [32; 807] | 185 => [49] | 186 => [111]
  | 188 => [49; 8260; 52] | 189 => [49; 8260; 50] | 190 => [51; 8260; 52]
  | 192 => [65; 768] | 193 => [65; 769] | 194 => [65; 770] | 195 => [65; 771]
  | 196 => [65; 776] | 197 => [65; 778] | 199 => [67; 807]
  | 200 => [69; 768] | 201 => [69; 769] | 202 => [69; 770] | 203 => [69; 776]
  | 204 => [73; 768] | 205 => [73; 769] | 206 => [73; 770] | 207 => [73; 776]
  | 209 => [78; 771]
  | 210 => [79; 768] | 211 => [79; 769] | 212 => [79; 770] | 213 => [79; 771]
  | 214 => [79; 776]
  | 217 => [85; 768] | 218 => [85; 769] | 219 => [85; 770] | 220 => [85; 776]
  | 221 => [89; 769]
  | 224 => [97; 768] | 225 => [97; 769] | 226 => [97; 770] | 227 => [97; 771]
  | 228 => [97; 776] | 229 => [97; 778] | 231 => [99; 807]
  | 232 => [101; 768] | 233 => [101; 769] | 234 => [101; 770]
  | 235 => [101; 776]
  | 236 => [105; 768] | 237 => [105; 769] | 238 => [105; 770]
  | 239 => [105; 776]
  | 241 => [110; 771]
  | 242 => [111; 768] | 243 => [111; 769] | 244 => [111; 770]
  | 245 => [111; 771] | 246 => [111; 776]
  | 249 => [117; 768] | 250 => [117; 769] | 251 => [117; 770]
  | 252 => [117; 776]
  | 253 => [121; 769] | 255 => [121; 776]
  | _ => [c]
  end.

Definition latin1_combining (c : N) : N :=
  if between 768 772 c || (c =? 776) || (c =? 778) then 230
  else if c =? 807 then 202
  else 0.

Definition latin1_isalnum (c : N) : bool :=
  (c =? 170) || (c =? 178) || (c =? 179) || (c =? 181) || (c =? 185)
  || (c =? 186) || between 188 190 c
  || between 192 214 c || between 216 246 c || between 248 255 c.

Definition latin1_isspace (c : N) : bool := (c =? 133) || (c =? 160).

Definition ucd_latin1 : UnicodeData := {|
  uni_decomposition := latin1_decomposition;
  uni_combining := latin1_combining;
  uni_isalnum := latin1_isalnum;
  uni_isspace := latin1_isspace
|}.

(** The topic of the golden test of the specification:
    c a f e-acute, space, d e-acute j a-grave, hyphen, v u. *)
Definition cafe_deja_vu : str :=
  [99; 97; 102; 233; 32; 100; 233; 106; 224; 45; 118; 117].

(** ** The form shell

    One run of [main] reads the widgets of one script run ([submission]) and
    appends to the log of what Streamlit rendered and of the calls made to
    the model provider.  [ui] threads the log and an exception.

    The calls of [main] outside its try block show fixed texts and the text
    typed into the form, and so does the message of the handler; they are
    logged with [emit].  The calls inside the try block show what the
    provider returned and may raise: they go through [render]. *)

Inductive event : Type :=
| Title (body : str)
| Markdown (body : str)
| TextArea (label placeholder : str) (height : N)
| FormSubmitButton (label : str)
| Spinner (text : str)
| RunnerRun (input : str)
| Success (body : str)
| Subheader (body : str)
| DownloadButton (label data file_name mime : str)
| Error (body : str)
| Warning (body : str).

Definition log := list event.

Record submission : Type := {
  essay_topic : str;
  submit_button : bool
}.

Definition ui (A : Type) : Type := log -> result A * log.

Definition ret {A : Type} (a : A) : ui A := fun w => (Ok a, w).

Definition ui_bind {A B : Type} (m : ui A) (k : A -> ui B) : ui B :=
  fun w =>
    match m w with
    | (Ok a, w') => k a w'
    | (Raise e, w') => (Raise e, w')
    end.

Definition lift {A : Type} (r : result A) : ui A := fun w => (r, w).

Definition emit (e : event) : ui unit := fun w => (Ok tt, w ++ [e]).

(* try: body / except Exception as e: handler e *)
Definition try_except {A : Type} (body : ui A) (handler : exn -> ui A) : ui A :=
  fun w =>
    match body w with
    | (Ok a, w') => (Ok a, w')
    | (Raise e, w') => handler e w'
    end.

Declare Scope ui_scope.
Delimit Scope ui_scope with ui.
Notation "x <- m ;; k" := (ui_bind m (fun x => k))
  (at level 61, m at next level, right associativity) : ui_scope.
Notation "m ;; k" := (ui_bind m (fun _ => k))
  (at level 61, right associativity) : ui_scope.

(** [str(e)] *)

Definition hex_digit (n : N) : N := if n <? 10 then 48 + n else 87 + n.

Definition decimal (n : nat) : str :=
  lit (NilEmpty.string_of_uint (Nat.to_uint n)).

Definition exn_str (e : exn) : str :=
  match e with
  | UnicodeDecodeError codec b pos =>
      lit "'" ++ lit codec ++ lit "' codec can't decode byte 0x"
      ++ [hex_digit (Byte.to_N b / 16); hex_digit (Byte.to_N b mod 16)]
      ++ lit " in position " ++ decimal pos
      ++ lit ": ordinal not in range(128)"
  | Exception text => text
  end.

(* bool(s) for a str *)
Definition truthy (s : str) : bool :=
  match s with
  | [] => false
  | _ :: _ => true
  end.

Definition is_call (e : event) : bool :=
  match e with
  | RunnerRun _ => true
  | _ => false
  end.

Definition is_download (e : event) : bool :=
  match e with
  | DownloadButton _ _ _ _ => true
  | _ => false
  end.

Definition is_error (e : event) : bool :=
  match e with
  | Error _ => true
  | _ => false
  end.


Definition calls_made (w : log) : nat := List.length (filter is_call w).

(** The input of the agent for a topic. *)
Definition prompt (topic : str) : str :=
  lit "Write a comprehensive essay about: " ++ topic.

Section Shell.

Variable ucd : UnicodeData.

(** The model provider: the outcome of [Runner.run] on a prompt, given how
    many calls were made before. *)
Variable provider : nat -> str -> result str.

(** Streamlit: the exception, if any, that the call showing an element
    raises (a string that cannot be sent to the browser, for instance).  An
    element whose call raises is not shown. *)
Variable streamlit : event -> option exn.

Definition render (e : event) : ui unit :=
  fun w =>
    match streamlit e with
    | None => (Ok tt, w ++ [e])
    | Some x => (Raise x, w)
    end.

Definition runner_run (input : str) : ui str :=
  fun w => (provider (calls_made w) input, w ++ [RunnerRun input]).

Definition generate_essay (topic : str) : ui str :=
  (final_output <- runner_run (prompt topic) ;;
   ret final_output)%ui.

Definition main (inp : submission) : ui unit :=
  (emit (Title (128221 :: lit " Smart Essay Agent")) ;;
   emit (Markdown
     (lit "Enter your topic below and get a well-written essay instantly!")) ;;
   emit (TextArea
     (lit "What would you like your essay about?")
     (lit "e.g., The importance of education, Allama Iqbal's philosophy, Climate change effects...")
     150) ;;
   let essay_topic := essay_topic inp in
   emit (FormSubmitButton (lit "Generate Essay")) ;;
   let submit_button := submit_button inp in
   if submit_button && truthy essay_topic then
     emit (Spinner
       (lit "Generating essay about '" ++ essay_topic ++ lit "'...")) ;;
     try_except
       (essay <- generate_essay essay_topic ;;
        render (Success (lit "Your essay is ready!")) ;;
        render (Markdown (lit "---")) ;;
        render (Subheader (lit "Essay: " ++ essay_topic)) ;;
        render (Markdown essay) ;;
        safe_filename <- lift (sanitize_filename ucd essay_topic) ;;
        let file_name :=
          lit "essay_" ++ firstn 50 safe_filename ++ lit ".txt" in
        render (DownloadButton
          (lit "Download Essay") essay file_name (lit "text/plain")))
       (fun e => emit (Error (lit "An error occurred: " ++ exn_str e)))
   else if submit_button && negb (truthy essay_topic) then
     emit (Warning (lit "Please enter a topic for your essay"))
   else ret tt)%ui.

(** The script runs once per submission; the log carries over. *)
Definition session (inps : list submission) (w : log) : log :=
  fold_left (fun w inp => snd (main inp w)) inps w.

End Shell.

(** What every run renders before it looks at the submission. *)
Definition page_head : log :=
  [ Title (128221 :: lit " Smart Essay Agent");
    Markdown
      (lit "Enter your topic below and get a well-written essay instantly!");
    TextArea
      (lit "What would you like your essay about?")
      (lit "e.g., The importance of education, Allama Iqbal's philosophy, Climate change effects...")
      150;
    FormSubmitButton (lit "Generate Essay") ].

(** ** The script around [main]

    The module body runs before [main]: page configuration, the style
    sheet, the look-up of the API key, and the stop when there is none. *)

Definition join_lines (ls : list str) : str :=
  match ls with
  | [] => []
  | l :: ls => l ++ flat_map (fun l' => 10 :: l') ls
  end.

Definition style_sheet : str :=
  join_lines
  [ lit "";
    lit "<style>";
    lit "    /* Button styling */";
    lit "    .stButton>button {";
    lit "        background-color: #1f77b4;";
    lit "        color: white !important;";
    lit "        padding: 10px 20px;";
    lit "        border-radius: 8px;";
    lit "        font-size: 16px;";
    lit "        border: none;";
    lit "        transition: background-color 0.3s ease;";
    lit "    }";
    lit "    .stButton>button:hover {";
    lit "        background-color: #1a66a0 !important;";
    lit "        color: white !important;";
    lit "    }";
    lit "    /* Text area styling */";
    lit "    .stTextArea>div>div>textarea {";
    lit "        min-height: 150px;";
    lit "    }";
    lit "</style> ";
    lit "" ].

Definition api_key_not_found : str :=
  join_lines
  [ lit "";
    lit "        API key not found! Either:";
    lit "        1. For local development: Set OPENROUTER_API_KEY in .env file";
    lit "        2. For deployment: Add OPENROUTER_API_KEY to Streamlit secrets";
    lit "    " ].

Record configuration : Type := {
  (* os.getenv("OPENROUTER_API_KEY") once load_dotenv() has run *)
  environ_key : option str;
  (* st.secrets["OPENROUTER_API_KEY"], which raises when there is no such
     secret *)
  secrets_key : result str
}.

Inductive script_event : Type :=
| SetPageConfig (page_title page_icon : str)
| MarkdownHtml (body : str)
| LoadDotenv
| StError (body : str)
| StStop.

(* bool(k) for a value that is None or a str *)
Definition truthy_opt (k : option str) : bool :=
  match k with
  | Some s => truthy s
  | None => false
  end.

(* try: os.getenv(...) or st.secrets[...] / except Exception: None *)
Definition openrouter_api_key (cfg : configuration) : option str :=
  match
    (if truthy_opt (environ_key cfg) then Ok (environ_key cfg)
     else k <- secrets_key cfg ;; Ok (Some k))
  with
  | Ok k => k
  | Raise _ => None
  end.

Section Script.

Variable ucd : UnicodeData.
Variable provider : nat -> str -> result str.
Variable streamlit : event -> option exn.

(** One run of the script: what the module body does, and the outcome of
    [main] when the run gets there. *)
Definition script (cfg : configuration) (inp : submission) (w : log)
  : list script_event * option (result unit * log) :=
  let body :=
    [ SetPageConfig (lit "Essay Agent") (lit ":globe_with_meridians:");
      MarkdownHtml style_sheet;
      LoadDotenv ] in
  let openrouter_api_key := openrouter_api_key cfg in
  if negb (truthy_opt openrouter_api_key)
  then (body ++ [StError api_key_not_found; StStop], None)
  else (body, Some (main ucd provider streamlit inp w)).

End Script.

(** ** Vocabulary of the further properties *)

(** A submission that passes the test of [main]: button pressed, topic not
    empty. *)
Definition valid (inp : submission) : bool :=
  submit_button inp && truthy (essay_topic inp).

(** Two adjacent occurrences of [u]. *)
Fixpoint has_double (u : N) (s : str) : bool :=
  match s with
  | [] => false
  | c :: t =>
      match t with
      | [] => false
      | d :: _ => ((c =? u) && (d =? u)) || has_double u t
      end
  end.

(** The five elements that [main] shows once the essay is there. *)
Definition essay_page (topic essay safe_filename : str) : log :=
  [ Success (lit "Your essay is ready!");
    Markdown (lit "---");
    Subheader (lit "Essay: " ++ topic);
    Markdown essay;
    DownloadButton
      (lit "Download Essay")
      essay
      (lit "essay_" ++ firstn 50 safe_filename ++ lit ".txt")
      (lit "text/plain") ].

(** The call showing [e] returns. *)
Definition renders (streamlit : event -> option exn) (e : event) : bool :=
  match streamlit e with
  | None => true
  | Some _ => false
  end.

Section Rendered.

Variable ucd : UnicodeData.
Variable provider : nat -> str -> result str.
Variable streamlit : event -> option exn.

(** What a try block that shows [es] in turn leaves on the page: the
    elements before the first whose call raises, then the message of the
    handler. *)
Fixpoint shown (es : log) : log :=
  match es with
  | [] => []
  | e :: es' =>
      match streamlit e with
      | None => e :: shown es'
      | Some x => [Error (lit "An error occurred: " ++ exn_str x)]
      end
  end.

(** What a run adds to the log after the form. *)
Definition rendered (inp : submission) (w : log) : log :=
  if valid inp then
    [ Spinner
        (lit "Generating essay about '" ++ essay_topic inp ++ lit "'...");
      RunnerRun (prompt (essay_topic inp)) ]
    ++ match provider (calls_made w) (prompt (essay_topic inp)) with
       | Ok essay =>
           shown
             (essay_page (essay_topic inp) essay
                (firstn 50
                   (step3 ucd
                      (step2 ucd (ascii_part ucd (essay_topic inp))))))
       | Raise e => [Error (lit "An error occurred: " ++ exn_str e)]
       end
  else if submit_button inp then
    [Warning (lit "Please enter a topic for your essay")]
  else [].

End Rendered.

(** [s] begins with [u]. *)
Definition starts_with (u : N) (s : str) : bool :=
  match s with
  | [] => false
  | c :: _ => c =? u
  end.

(** The characters of a download file name: [A-Za-z0-9_] and the dot. *)
Definition file_name_char (c : N) : bool := safe c || (c =? 46).

(** ** Facts about the building blocks *)

Ltac to_prop :=
  repeat match goal with
  | H : _ && _ = true |- _ => apply andb_true_iff in H; destruct H
  | H : _ || _ = true |- _ => apply orb_true_iff in H
  | H : _ || _ = false |- _ => apply orb_false_iff in H; destruct H
  | H : negb _ = true |- _ => apply negb_true_iff in H
  | H : negb _ = false |- _ => apply negb_false_iff in H
  | H : (_ <=? _) = true |- _ => apply N.leb_le in H
  | H : (_ <? _) = true |- _ => apply N.ltb_lt in H
  | H : (_ <? _) = false |- _ => apply N.ltb_ge in H
  | H : (_ =? _) = true |- _ => apply N.eqb_eq in H
  | H : (_ =? _) = false |- _ => apply N.eqb_neq in H
  | H : _ \/ _ |- _ => destruct H
  end.

Lemma safe_is_ascii c : safe c = true -> is_ascii c = true.
Proof.
  unfold safe, ascii_isalnum, between, underscore, is_ascii. intros H.
  apply N.ltb_lt. to_prop; lia.
Qed.

Lemma safe_not_windows_illegal c : safe c = true -> windows_illegal c = false.
Proof.
  unfold safe, ascii_isalnum, between, underscore, windows_illegal.
  intros H. cbn [existsb].
  repeat match goal with
  | |- context [c =? ?k] => destruct (N.eqb_spec c k); [subst c; discriminate H|]
  end.
  reflexivity.
Qed.

Lemma ascii_isspace_not_safe c : ascii_isspace c = true -> safe c = false.
Proof.
  unfold safe, ascii_isalnum, ascii_isspace, between, underscore. intros H.
  destruct (_ || _ || _ || _) eqn:E; [exfalso|reflexivity].
  to_prop; lia.
Qed.

Section SanitizerFacts.

Variable ucd : UnicodeData.

Lemma word_ascii c : is_ascii c = true -> word ucd c = safe c.
Proof. intros H. unfold word, safe, isalnum. now rewrite H. Qed.

Lemma isspace_ascii c : is_ascii c = true -> isspace ucd c = ascii_isspace c.
Proof. intros H. unfold isspace. now rewrite H. Qed.

Lemma safe_not_isspace c : safe c = true -> isspace ucd c = false.
Proof.
  intros H. rewrite isspace_ascii by now apply safe_is_ascii.
  destruct (ascii_isspace c) eqn:E; [|reflexivity].
  apply ascii_isspace_not_safe in E. congruence.
Qed.

Lemma safe_not_separator c : safe c = true -> separator ucd c = false.
Proof.
  intros H. unfold separator. rewrite (safe_not_isspace _ H), orb_false_r.
  apply N.eqb_neq. intros ->. discriminate H.
Qed.

Lemma safe_retained c : safe c = true -> retained ucd c = true.
Proof.
  intros H. unfold retained.
  rewrite word_ascii by now apply safe_is_ascii. now rewrite H.
Qed.

(** Among ASCII code points, what step 2 keeps and step 3 does not replace
    is in the output alphabet. *)
Lemma retained_not_separator_safe c :
  is_ascii c = true -> retained ucd c = true -> separator ucd c = false ->
  safe c = true.
Proof.
  intros Ha Hr Hs. unfold retained in Hr. unfold separator in Hs.
  rewrite word_ascii in Hr by assumption.
  apply orb_false_iff in Hs. destruct Hs as [Hh Hsp].
  rewrite Hh, Hsp in Hr. now rewrite !orb_false_r in Hr.
Qed.

(** *** Step 1 *)

Lemma decode_encode_from pos s :
  decode_ascii_from pos (encode_ascii_ignore s) = Ok (filter is_ascii s).
Proof.
  revert pos. induction s as [|c s IH]; intros pos; [reflexivity|].
  cbn [encode_ascii_ignore flat_map filter].
  fold (encode_ascii_ignore s).
  destruct (is_ascii c) eqn:Hc; [|apply IH].
  destruct (Byte.of_N c) as [b|] eqn:Hb.
  - apply Byte.to_of_N in Hb. cbn [app decode_ascii_from].
    rewrite Hb, Hc, IH. reflexivity.
  - apply Byte.of_N_None_iff in Hb. unfold is_ascii in Hc.
    apply N.ltb_lt in Hc. lia.
Qed.

Lemma bubble_filter_ascii c before :
  filter is_ascii (rev (bubble ucd c before))
  = filter is_ascii (rev before) ++ filter is_ascii [c].
Proof.
  induction before as [|d r IH]; [reflexivity|].
  cbn [bubble].
  destruct ((0 <? combining ucd c) && (combining ucd c <? combining ucd d))
    eqn:E.
  - assert (Hc : is_ascii c = false).
    { destruct (is_ascii c) eqn:Hc; [|reflexivity].
      unfold combining in E. rewrite Hc in E. discriminate E. }
    cbn [rev]. rewrite !filter_app, IH. cbn [filter]. rewrite Hc.
    now rewrite !app_nil_r.
  - change (c :: d :: r) with ([c] ++ d :: r).
    now rewrite rev_app_distr, filter_app.
Qed.

Lemma fold_bubble_filter_ascii s acc :
  filter is_ascii (rev (fold_left (fun a c => bubble ucd c a) s acc))
  = filter is_ascii (rev acc) ++ filter is_ascii s.
Proof.
  revert acc. induction s as [|c s IH]; intros acc.
  - cbn. now rewrite app_nil_r.
  - cbn [fold_left]. rewrite IH, bubble_filter_ascii, <- app_assoc.
    cbn [filter]. now destruct (is_ascii c).
Qed.

(** Canonical ordering moves no ASCII code point. *)
Lemma filter_ascii_canonical_order s :
  filter is_ascii (canonical_order ucd s) = filter is_ascii s.
Proof. unfold canonical_order. now rewrite fold_bubble_filter_ascii. Qed.

Lemma step1_ok s :
  step1 ucd s = Ok (filter is_ascii (flat_map (decomposition ucd) s)).
Proof.
  unfold step1, decode_ascii, normalize_NFKD.
  now rewrite decode_encode_from, filter_ascii_canonical_order.
Qed.

Lemma flat_map_decomposition_ascii s :
  forallb is_ascii s = true -> flat_map (decomposition ucd) s = s.
Proof.
  induction s as [|c s IH]; [reflexivity|]. cbn [forallb flat_map].
  intros H. apply andb_true_iff in H. destruct H as [Hc Hs].
  unfold decomposition at 1. rewrite Hc, IH by assumption. reflexivity.
Qed.

Lemma filter_all (P : N -> bool) s : forallb P s = true -> filter P s = s.
Proof.
  induction s as [|c s IH]; [reflexivity|]. cbn [forallb filter].
  intros H. apply andb_true_iff in H. destruct H as [Hc Hs].
  now rewrite Hc, IH.
Qed.

Lemma forallb_impl (P Q : N -> bool) s :
  (forall c, P c = true -> Q c = true) ->
  forallb P s = true -> forallb Q s = true.
Proof.
  intros HPQ H. apply forallb_forall. intros c Hc.
  apply HPQ. revert c Hc. now apply forallb_forall.
Qed.

Lemma step1_ascii s : forallb is_ascii s = true -> step1 ucd s = Ok s.
Proof.
  intros H. rewrite step1_ok, flat_map_decomposition_ascii by assumption.
  now rewrite filter_all.
Qed.

(** *** Steps 2 to 4 *)

Lemma re_sub_class_delete cls s :
  re_sub_class cls [] s = filter (fun c => negb (cls c)) s.
Proof.
  induction s as [|c s IH]; [reflexivity|].
  cbn [re_sub_class flat_map filter]. fold (re_sub_class cls [] s).
  rewrite IH. now destruct (cls c).
Qed.

Lemma In_lstrip c s : In c (lstrip ucd s) -> In c s.
Proof.
  induction s as [|d s IH]; [easy|]. cbn [lstrip].
  destruct (isspace ucd d); [right; now apply IH | easy].
Qed.

Lemma In_strip c s : In c (strip ucd s) -> In c s.
Proof.
  unfold strip, rstrip. intros H.
  apply In_lstrip. apply in_rev. apply In_lstrip. now apply in_rev in H.
Qed.

Lemma In_step2 c s : In c (step2 ucd s) -> In c s /\ retained ucd c = true.
Proof.
  unfold step2. intros H. apply In_strip in H.
  rewrite re_sub_class_delete in H. apply filter_In in H.
  destruct H as [Hin Hr]. split; [assumption|].
  unfold special in Hr. now rewrite negb_involutive in Hr.
Qed.

Lemma In_re_sub_run cls u b c s :
  In c (re_sub_run cls [u] b s) -> c = u \/ (In c s /\ cls c = false).
Proof.
  revert b. induction s as [|d s IH]; intros b; [easy|].
  cbn [re_sub_run]. destruct (cls d) eqn:Hd.
  - intros H. apply in_app_or in H. destruct H as [H|H].
    + destruct b; [easy|]. destruct H as [<-|[]]. now left.
    + destruct (IH _ H) as [->|[Hin Hc]]; [now left|right; split; [now right|easy]].
  - intros [<-|H]; [right; split; [now left|easy]|].
    destruct (IH _ H) as [->|[Hin Hc]]; [now left|right; split; [now right|easy]].
Qed.

Lemma lstrip_no_space s :
  forallb (fun c => negb (isspace ucd c)) s = true -> lstrip ucd s = s.
Proof.
  destruct s as [|c s]; [reflexivity|]. cbn [forallb lstrip]. intros H.
  apply andb_true_iff in H. destruct H as [Hc _].
  apply negb_true_iff in Hc. now rewrite Hc.
Qed.

Lemma strip_no_space s :
  forallb (fun c => negb (isspace ucd c)) s = true -> strip ucd s = s.
Proof.
  intros H. unfold strip, rstrip. rewrite (lstrip_no_space s H).
  rewrite lstrip_no_space; [apply rev_involutive|].
  apply forallb_forall. intros c Hc. apply in_rev in Hc.
  revert c Hc. now apply forallb_forall.
Qed.

Lemma re_sub_run_no_match cls repl b s :
  forallb (fun c => negb (cls c)) s = true -> re_sub_run cls repl b s = s.
Proof.
  revert b. induction s as [|c s IH]; intros b; [reflexivity|].
  cbn [forallb re_sub_run]. intros H.
  apply andb_true_iff in H. destruct H as [Hc Hs].
  apply negb_true_iff in Hc. now rewrite Hc, IH.
Qed.

Lemma step2_safe s : forallb safe s = true -> step2 ucd s = s.
Proof.
  intros H. unfold step2. rewrite re_sub_class_delete, filter_all.
  - apply strip_no_space. revert H. apply forallb_impl. intros c Hc.
    now rewrite safe_not_isspace.
  - revert H. apply forallb_impl. intros c Hc. unfold special.
    now rewrite negb_involutive, safe_retained.
Qed.

Lemma step3_safe s : forallb safe s = true -> step3 ucd s = s.
Proof.
  intros H. unfold step3, re_sub_class_plus. apply re_sub_run_no_match.
  revert H. apply forallb_impl. intros c Hc. now rewrite safe_not_separator.
Qed.

Lemma step4_safe s : forallb safe s = true -> step4 s = s.
Proof.
  intros H. unfold step4. rewrite re_sub_class_delete. apply filter_all.
  revert H. apply forallb_impl. intros c Hc.
  now rewrite safe_not_windows_illegal.
Qed.

Lemma safe_no_windows_illegal s :
  forallb safe s = true -> existsb windows_illegal s = false.
Proof.
  induction s as [|c s IH]; [reflexivity|]. cbn [forallb existsb].
  intros H. apply andb_true_iff in H. destruct H as [Hc Hs].
  now rewrite safe_not_windows_illegal, IH.
Qed.

(** After step 3 only the output alphabet is left. *)
Lemma step3_step2_safe s :
  forallb is_ascii s = true -> forallb safe (step3 ucd (step2 ucd s)) = true.
Proof.
  intros Hs. apply forallb_forall. intros c Hc.
  unfold step3, re_sub_class_plus in Hc. apply In_re_sub_run in Hc.
  destruct Hc as [->|[Hin Hsep]]; [reflexivity|].
  apply In_step2 in Hin. destruct Hin as [Hin Hr].
  apply retained_not_separator_safe; try assumption.
  clear Hr Hsep. revert c Hin. now apply forallb_forall.
Qed.

Lemma forallb_filter_same (P : N -> bool) s : forallb P (filter P s) = true.
Proof.
  apply forallb_forall. intros c Hc. now apply filter_In in Hc.
Qed.

Lemma forallb_firstn (P : N -> bool) n s :
  forallb P s = true -> forallb P (firstn n s) = true.
Proof.
  revert n. induction s as [|c s IH]; intros [|n]; try easy.
  cbn [forallb firstn]. intros H. apply andb_true_iff in H.
  destruct H as [Hc Hs]. now rewrite Hc, IH.
Qed.

(** On a string of the output alphabet only the truncation acts. *)
Lemma sanitize_filename_on_safe s :
  forallb safe s = true -> sanitize_filename ucd s = Ok (firstn 50 s).
Proof.
  intros H. unfold sanitize_filename.
  rewrite step1_ascii by (revert H; apply forallb_impl, safe_is_ascii).
  cbn [bind]. now rewrite step2_safe, step3_safe, step4_safe.
Qed.

End SanitizerFacts.

(** ** The sanitizer: value and range of the result *)

Section SanitizerValue.

Variable ucd : UnicodeData.

Lemma sanitize_filename_value s :
  sanitize_filename ucd s
  = Ok (firstn 50 (step3 ucd (step2 ucd (ascii_part ucd s)))).
Proof.
  unfold sanitize_filename. rewrite step1_ok. cbn [bind].
  rewrite step4_safe; [reflexivity|].
  apply step3_step2_safe, forallb_filter_same.
Qed.

Lemma sanitize_without_step4_value s :
  sanitize_without_step4 ucd s
  = Ok (firstn 50 (step3 ucd (step2 ucd (ascii_part ucd s)))).
Proof. unfold sanitize_without_step4. now rewrite step1_ok. Qed.

Lemma sanitize_filename_value_safe s :
  forallb safe (firstn 50 (step3 ucd (step2 ucd (ascii_part ucd s)))) = true.
Proof. apply forallb_firstn, step3_step2_safe, forallb_filter_same. Qed.

Lemma ascii_part_removable s :
  forallb (removable ucd) s = true ->
  forallb (fun d => special ucd d || isspace ucd d) (ascii_part ucd s) = true.
Proof.
  intros H. apply forallb_forall. intros d Hd.
  apply filter_In in Hd. destruct Hd as [Hd Ha].
  apply in_flat_map in Hd. destruct Hd as [c [Hc Hdc]].
  assert (Hr : removable ucd c = true).
  { clear Hdc. revert c Hc. now apply forallb_forall. }
  unfold removable in Hr.
  assert (Hd := proj1 (forallb_forall _ _) Hr d Hdc). cbn beta in Hd.
  now rewrite Ha in Hd.
Qed.

Lemma lstrip_all_space s :
  forallb (isspace ucd) s = true -> lstrip ucd s = [].
Proof.
  induction s as [|c s IH]; [reflexivity|]. cbn [forallb lstrip].
  intros H. apply andb_true_iff in H. destruct H as [Hc Hs].
  rewrite Hc. now apply IH.
Qed.

(** Step 2 empties a string of special characters and whitespace. *)
Lemma step2_all_removed s :
  forallb (fun d => special ucd d || isspace ucd d) s = true ->
  step2 ucd s = [].
Proof.
  intros H. unfold step2, strip. rewrite lstrip_all_space; [reflexivity|].
  rewrite re_sub_class_delete. apply forallb_forall. intros c Hc.
  apply filter_In in Hc. destruct Hc as [Hin Hns].
  assert (Hc := proj1 (forallb_forall _ _) H c Hin). cbn beta in Hc.
  apply negb_true_iff in Hns. now rewrite Hns in Hc.
Qed.

End SanitizerValue.

(** ** The claims about [sanitize_filename] *)

(** C1: for every input string, [sanitize_filename] raises nothing and
    returns a string of at most 50 characters, all of them in [A-Za-z0-9_]. *)
Theorem sanitize_filename_total_safe_short (ucd : UnicodeData) (S : str) :
  exists out,
    sanitize_filename ucd S = Ok out
    /\ forallb safe out = true
    /\ (List.length out <= 50)%nat.
Proof.
  eexists. split; [apply sanitize_filename_value|]. split.
  - apply sanitize_filename_value_safe.
  - apply firstn_le_length.
Qed.

(** C2, as stated, fails: with the decompositions of UnicodeData.txt the
    accented letters keep their base letter, and the result is not
    "caf_dj_vu". *)
Lemma cafe_deja_vu_not_stripped :
  sanitize_filename ucd_latin1 cafe_deja_vu <> Ok (lit "caf_dj_vu").
Proof. vm_compute. discriminate. Qed.

(** C2, amended: whenever e-acute decomposes into e and the combining acute
    accent, and a-grave into a and the combining grave accent, the topic
    "cafe deja-vu" written with its accents is sanitized to "cafe_deja_vu":
    the accents go, the base letters stay. *)
Theorem cafe_deja_vu_folded (ucd : UnicodeData) :
  uni_decomposition ucd 233 = [101; 769] ->
  uni_decomposition ucd 224 = [97; 768] ->
  sanitize_filename ucd cafe_deja_vu = Ok (lit "cafe_deja_vu").
Proof.
  intros He Ha. rewrite sanitize_filename_value.
  unfold ascii_part, cafe_deja_vu. cbn [flat_map].
  unfold decomposition. cbn [is_ascii N.ltb N.compare Pos.compare Pos.compare_cont].
  rewrite He, Ha. reflexivity.
Qed.

Lemma cafe_deja_vu_folded_latin1 :
  sanitize_filename ucd_latin1 cafe_deja_vu = Ok (lit "cafe_deja_vu").
Proof. apply (cafe_deja_vu_folded ucd_latin1); reflexivity. Defined.

(** The examples of the specification that hold as written. *)
Example sanitize_filename_climate_change (ucd : UnicodeData) :
  sanitize_filename ucd (lit "Climate Change!!") = Ok (lit "Climate_Change").
Proof. reflexivity. Qed.

(** C3: on every string made of characters that step 2 keeps (word
    characters, whitespace, hyphen), sanitizing twice gives what sanitizing
    once gives. *)
Theorem sanitize_filename_idempotent (ucd : UnicodeData) (S : str) :
  forallb (retained ucd) S = true ->
  exists out,
    sanitize_filename ucd S = Ok out /\ sanitize_filename ucd out = Ok out.
Proof.
  intros _. eexists. split; [apply sanitize_filename_value|].
  rewrite sanitize_filename_on_safe by apply sanitize_filename_value_safe.
  now rewrite firstn_firstn.
Qed.

Lemma sanitize_filename_idempotent_example :
  exists out,
    sanitize_filename ucd_latin1 (lit "Climate - Change_42") = Ok out
    /\ sanitize_filename ucd_latin1 out = Ok out.
Proof.
  apply (sanitize_filename_idempotent ucd_latin1 (lit "Climate - Change_42")).
  reflexivity.
Defined.

(** C4: step 4 is redundant: on every input the pipeline with step 4 and the
    pipeline without it return the same, since none of the nine characters
    that step 4 removes is left after steps 1 to 3. *)
Theorem step4_redundant (ucd : UnicodeData) (S : str) :
  sanitize_filename ucd S = sanitize_without_step4 ucd S
  /\ exists x,
       step1 ucd S = Ok x
       /\ existsb windows_illegal (step3 ucd (step2 ucd x)) = false.
Proof.
  split.
  - now rewrite sanitize_filename_value, sanitize_without_step4_value.
  - eexists. split; [apply step1_ok|].
    apply safe_no_windows_illegal, step3_step2_safe, forallb_filter_same.
Qed.

(** C5: 200 repetitions of a character of [A-Za-z0-9] are sanitized to the
    first 50 characters of the input, a string of length exactly 50. *)
Theorem sanitize_filename_truncates (ucd : UnicodeData) (c : N) :
  ascii_isalnum c = true ->
  exists out,
    sanitize_filename ucd (repeat c 200) = Ok out
    /\ out = firstn 50 (repeat c 200)
    /\ List.length out = 50%nat.
Proof.
  intros Hc. eexists. split; [|split; [reflexivity|reflexivity]].
  apply sanitize_filename_on_safe. apply forallb_forall.
  intros d Hd. apply repeat_spec in Hd. subst d.
  unfold safe. now rewrite Hc.
Qed.

Lemma sanitize_filename_truncates_x :
  exists out,
    sanitize_filename ucd_latin1 (repeat 120 200) = Ok out
    /\ out = firstn 50 (repeat 120 200)
    /\ List.length out = 50%nat.
Proof. apply (sanitize_filename_truncates ucd_latin1 120). reflexivity. Defined.

(** C6: the empty string is sanitized to the empty string, and so is every
    string made of removable characters only (punctuation, code points
    with nothing in ASCII, and whitespace among them); the result is a
    value, not an exception. *)
Theorem sanitize_filename_removable (ucd : UnicodeData) :
  sanitize_filename ucd [] = Ok []
  /\ forall S : str,
       forallb (removable ucd) S = true -> sanitize_filename ucd S = Ok [].
Proof.
  split; [reflexivity|]. intros S H.
  rewrite sanitize_filename_value.
  rewrite step2_all_removed by now apply ascii_part_removable.
  reflexivity.
Qed.

(** "!? " followed by the euro sign and a CJK ideograph. *)
Lemma sanitize_filename_removable_example :
  sanitize_filename ucd_latin1 [33; 63; 32; 8364; 20013] = Ok [].
Proof.
  apply (proj2 (sanitize_filename_removable ucd_latin1)). reflexivity.
Defined.

(** ** The claims about the form shell *)

Lemma calls_made_app w out :
  calls_made (w ++ out) = (calls_made w + calls_made out)%nat.
Proof. unfold calls_made. now rewrite filter_app, length_app. Qed.

Section ShellFacts.

Variable ucd : UnicodeData.
Variable provider : nat -> str -> result str.
Variable streamlit : event -> option exn.

(** *** What a try block leaves on the page *)

Lemma shown_all es :
  forallb (renders streamlit) es = true -> shown streamlit es = es.
Proof.
  induction es as [|e es IH]; [reflexivity|]. cbn [forallb shown].
  unfold renders at 1. intros H. apply andb_true_iff in H.
  destruct H as [He Hes]. destruct (streamlit e); [discriminate|].
  now rewrite IH.
Qed.

Lemma In_shown d es :
  In d (shown streamlit es) -> is_error d = false -> In d es.
Proof.
  induction es as [|e es IH]; [easy|]. cbn [shown].
  destruct (streamlit e) as [x|].
  - intros [<-|[]]. discriminate.
  - intros [<-|H] Hd; [now left|right; now apply IH].
Qed.

Lemma filter_shown (P : event -> bool) es :
  (forall body, P (Error body) = false) ->
  forallb (fun e => negb (P e)) es = true ->
  filter P (shown streamlit es) = [].
Proof.
  intros HP. induction es as [|e es IH]; [reflexivity|].
  cbn [forallb shown]. intros H. apply andb_true_iff in H.
  destruct H as [He Hes]. apply negb_true_iff in He.
  destruct (streamlit e) as [x|]; cbn [filter].
  - now rewrite HP.
  - rewrite He. now apply IH.
Qed.



(** *** The four ways through [main] *)

Lemma main_no_submit inp w :
  submit_button inp = false ->
  main ucd provider streamlit inp w = (Ok tt, w ++ page_head).
Proof.
  destruct inp as [topic submit]. cbn [submit_button]. intros ->.
  cbv [main ui_bind emit ret].
  cbn [andb truthy negb essay_topic submit_button].
  unfold page_head. now rewrite <- !app_assoc.
Qed.

(** A run submitted with an empty topic. *)
Lemma main_empty_topic inp w :
  submit_button inp = true -> essay_topic inp = [] ->
  main ucd provider streamlit inp w
  = (Ok tt,
     w ++ page_head ++ [Warning (lit "Please enter a topic for your essay")]).
Proof.
  destruct inp as [topic submit]. cbn [submit_button essay_topic].
  intros -> ->.
  cbv [main ui_bind emit ret].
  cbn [andb truthy negb essay_topic submit_button].
  unfold page_head. now rewrite <- !app_assoc.
Qed.

(** A run submitted with a topic, up to the outcome of the generation. *)
Lemma main_topic_raise inp w e :
  submit_button inp = true -> essay_topic inp <> [] ->
  provider (calls_made w) (prompt (essay_topic inp)) = Raise e ->
  main ucd provider streamlit inp w
  = (Ok tt,
     w ++ page_head
       ++ [ Spinner
              (lit "Generating essay about '" ++ essay_topic inp ++ lit "'...");
            RunnerRun (prompt (essay_topic inp));
            Error (lit "An error occurred: " ++ exn_str e) ]).
Proof.
  destruct inp as [topic submit]. cbn [submit_button essay_topic].
  intros -> Htopic Hp.
  destruct topic as [|c topic]; [contradiction|].
  cbv [main ui_bind emit ret try_except generate_essay runner_run].
  cbn [andb truthy negb essay_topic submit_button].
  rewrite !calls_made_app. cbn [calls_made filter is_call List.length].
  rewrite !Nat.add_0_r, Hp.
  unfold page_head. now rewrite <- !app_assoc.
Qed.

Lemma main_topic_ok inp w essay :
  submit_button inp = true -> essay_topic inp <> [] ->
  provider (calls_made w) (prompt (essay_topic inp)) = Ok essay ->
  main ucd provider streamlit inp w
  = (Ok tt,
     w ++ page_head
       ++ [ Spinner
              (lit "Generating essay about '" ++ essay_topic inp ++ lit "'...");
            RunnerRun (prompt (essay_topic inp)) ]
       ++ shown streamlit
            (essay_page (essay_topic inp) essay
               (firstn 50
                  (step3 ucd
                     (step2 ucd (ascii_part ucd (essay_topic inp))))))).
Proof.
  destruct inp as [topic submit]. cbn [submit_button essay_topic].
  intros -> Htopic Hp.
  destruct topic as [|c topic]; [contradiction|].
  cbv [main ui_bind emit ret try_except generate_essay runner_run lift render].
  cbn [andb truthy negb essay_topic submit_button].
  rewrite !calls_made_app. cbn [calls_made filter is_call List.length].
  rewrite !Nat.add_0_r, Hp.
  rewrite sanitize_filename_value.
  unfold page_head, essay_page. cbn [shown].
  repeat match goal with
  | |- context [streamlit ?e] => destruct (streamlit e)
  end; now rewrite <- !app_assoc.
Qed.

Lemma main_rendered inp w :
  main ucd provider streamlit inp w
  = (Ok tt, w ++ page_head ++ rendered ucd provider streamlit inp w).
Proof.
  unfold rendered, valid.
  destruct (submit_button inp) eqn:Hs.
  - destruct (essay_topic inp) as [|c topic] eqn:Ht.
    + cbn [truthy andb]. now apply main_empty_topic.
    + cbn [truthy andb]. rewrite <- Ht.
      assert (Hne : essay_topic inp <> []) by (rewrite Ht; discriminate).
      destruct (provider (calls_made w) (prompt (essay_topic inp)))
        as [essay|e] eqn:Hp.
      * now rewrite (main_topic_ok inp w essay Hs Hne Hp).
      * now rewrite (main_topic_raise inp w e Hs Hne Hp).
  - cbn [andb]. rewrite app_nil_r. now apply main_no_submit.
Qed.

Lemma calls_made_rendered inp w :
  calls_made (rendered ucd provider streamlit inp w)
  = if valid inp then 1%nat else 0%nat.
Proof.
  unfold rendered. destruct (valid inp).
  - destruct (provider _ _); [|reflexivity].
    rewrite calls_made_app. unfold calls_made at 2.
    now rewrite filter_shown.
  - now destruct (submit_button inp).
Qed.

Lemma calls_made_main inp w :
  calls_made (snd (main ucd provider streamlit inp w))
  = (calls_made w + if valid inp then 1 else 0)%nat.
Proof.
  rewrite main_rendered. cbn [snd].
  rewrite !calls_made_app, calls_made_rendered. reflexivity.
Qed.

Lemma session_snoc before inp w :
  session ucd provider streamlit (before ++ [inp]) w
  = snd (main ucd provider streamlit inp
           (session ucd provider streamlit before w)).
Proof. unfold session. now rewrite fold_left_app. Qed.

Lemma file_name_chars s :
  forallb safe s = true ->
  forallb file_name_char (lit "essay_" ++ s ++ lit ".txt") = true.
Proof.
  intros H. rewrite !forallb_app. apply andb_true_iff. split; [reflexivity|].
  apply andb_true_iff. split; [|reflexivity].
  revert H. apply forallb_impl. intros c Hc. unfold file_name_char.
  now rewrite Hc.
Qed.

End ShellFacts.

(** C7: at every step of every session, a submission with an empty topic
    makes no generation call and shows the validation warning. *)
Theorem empty_topic_never_generates
    (ucd : UnicodeData) (provider : nat -> str -> result str)
    (streamlit : event -> option exn)
    (before : list submission) (inp : submission) (w : log) :
  submit_button inp = true -> essay_topic inp = [] ->
  exists out,
    session ucd provider streamlit (before ++ [inp]) w
    = session ucd provider streamlit before w ++ out
    /\ filter is_call out = []
    /\ In (Warning (lit "Please enter a topic for your essay")) out.
Proof.
  intros Hs Ht. rewrite session_snoc, main_empty_topic by assumption.
  cbn [snd]. eexists. split; [reflexivity|]. split; [reflexivity|].
  apply in_or_app. right. now left.
Qed.

Lemma empty_topic_never_generates_example :
  exists out,
    session ucd_latin1 (fun _ _ => Ok (lit "An essay.")) (fun _ => None)
      ([ {| essay_topic := lit "Rivers"; submit_button := true |} ]
       ++ [ {| essay_topic := []; submit_button := true |} ]) []
    = session ucd_latin1 (fun _ _ => Ok (lit "An essay.")) (fun _ => None)
        [ {| essay_topic := lit "Rivers"; submit_button := true |} ] [] ++ out
    /\ filter is_call out = []
    /\ In (Warning (lit "Please enter a topic for your essay")) out.
Proof.
  apply (empty_topic_never_generates ucd_latin1
           (fun _ _ => Ok (lit "An essay.")) (fun _ => None)
           [ {| essay_topic := lit "Rivers"; submit_button := true |} ]
           {| essay_topic := []; submit_button := true |} []);
    reflexivity.
Defined.

(** C8: when a non-empty topic is submitted, every download that the run
    offers has the file name "essay_", then the first 50 characters of the
    sanitized topic, then ".txt", the essay that the provider returned as
    its content, and the MIME type text/plain; and this download is offered
    whenever the provider returns an essay and the five calls that show it
    return. *)
Theorem download_offer
    (ucd : UnicodeData) (provider : nat -> str -> result str)
    (streamlit : event -> option exn)
    (inp : submission) (w : log) :
  submit_button inp = true -> essay_topic inp <> [] ->
  exists safe_filename out,
    sanitize_filename ucd (essay_topic inp) = Ok safe_filename
    /\ main ucd provider streamlit inp w = (Ok tt, w ++ out)
    /\ (forall d,
          In d out -> is_download d = true ->
          exists essay,
            provider (calls_made w) (prompt (essay_topic inp)) = Ok essay
            /\ d = DownloadButton
                     (lit "Download Essay")
                     essay
                     (lit "essay_" ++ firstn 50 safe_filename ++ lit ".txt")
                     (lit "text/plain"))
    /\ (forall essay,
          provider (calls_made w) (prompt (essay_topic inp)) = Ok essay ->
          forallb (renders streamlit)
            (essay_page (essay_topic inp) essay safe_filename) = true ->
          filter is_download out
          = [ DownloadButton
                (lit "Download Essay")
                essay
                (lit "essay_" ++ firstn 50 safe_filename ++ lit ".txt")
                (lit "text/plain") ]).
Proof.
  intros Hs Ht. eexists.
  destruct (provider (calls_made w) (prompt (essay_topic inp)))
    as [essay|e] eqn:Hp; eexists.
  - split; [apply sanitize_filename_value|].
    split; [apply (main_topic_ok _ _ _ _ _ essay); assumption|].
    split.
    + intros d Hd Hdl. exists essay. split; [reflexivity|].
      apply in_app_or in Hd. destruct Hd as [Hd|Hd].
      { unfold page_head in Hd. cbn [In] in Hd.
        repeat (destruct Hd as [Hd|Hd]; [subst d; discriminate Hdl|]).
        easy. }
      apply in_app_or in Hd. destruct Hd as [Hd|Hd].
      { cbn [In] in Hd.
        repeat (destruct Hd as [Hd|Hd]; [subst d; discriminate Hdl|]).
        easy. }
      apply In_shown in Hd; [|now destruct d].
      unfold essay_page in Hd. cbn [In] in Hd.
      repeat (destruct Hd as [Hd|Hd];
              [subst d; first [discriminate Hdl|reflexivity]|]).
      easy.
    + intros essay' He Hr. injection He as <-.
      now rewrite (shown_all _ _ Hr).
  - split; [apply sanitize_filename_value|].
    split; [apply (main_topic_raise _ _ _ _ _ e); assumption|].
    split.
    + intros d Hd Hdl. exfalso.
      apply in_app_or in Hd. destruct Hd as [Hd|Hd].
      { unfold page_head in Hd. cbn [In] in Hd.
        repeat (destruct Hd as [Hd|Hd]; [subst d; discriminate Hdl|]).
        easy. }
      cbn [In] in Hd.
      repeat (destruct Hd as [Hd|Hd]; [subst d; discriminate Hdl|]).
      easy.
    + intros essay He. discriminate He.
Qed.

Lemma download_offer_example :
  exists safe_filename out,
    sanitize_filename ucd_latin1 (lit "Climate Change!!") = Ok safe_filename
    /\ main ucd_latin1 (fun _ _ => Ok (lit "An essay.")) (fun _ => None)
         {| essay_topic := lit "Climate Change!!"; submit_button := true |} []
       = (Ok tt, [] ++ out)
    /\ (forall d,
          In d out -> is_download d = true ->
          exists essay,
            Ok (lit "An essay.") = Ok essay
            /\ d = DownloadButton
                     (lit "Download Essay")
                     essay
                     (lit "essay_" ++ firstn 50 safe_filename ++ lit ".txt")
                     (lit "text/plain"))
    /\ (forall essay,
          Ok (lit "An essay.") = Ok essay ->
          forallb (renders (fun _ => None))
            (essay_page (lit "Climate Change!!") essay safe_filename) = true ->
          filter is_download out
          = [ DownloadButton
                (lit "Download Essay")
                essay
                (lit "essay_" ++ firstn 50 safe_filename ++ lit ".txt")
                (lit "text/plain") ]).
Proof.
  apply (download_offer ucd_latin1 (fun _ _ => Ok (lit "An essay."))
           (fun _ => None)
           {| essay_topic := lit "Climate Change!!"; submit_button := true |}
           []);
    [reflexivity | discriminate].
Defined.



(** ** Further properties of [sanitize_filename] *)

Lemma ascii_isspace_is_ascii c : ascii_isspace c = true -> is_ascii c = true.
Proof.
  unfold ascii_isspace, between, is_ascii. intros H.
  apply N.ltb_lt. to_prop; lia.
Qed.



Section SanitizerMore.

Variable ucd : UnicodeData.

Lemma ascii_part_app a b :
  ascii_part ucd (a ++ b) = ascii_part ucd a ++ ascii_part ucd b.
Proof. unfold ascii_part. now rewrite flat_map_app, filter_app. Qed.

Lemma ascii_part_ascii s :
  forallb is_ascii s = true -> ascii_part ucd s = s.
Proof.
  intros H. unfold ascii_part.
  rewrite flat_map_decomposition_ascii by assumption. now apply filter_all.
Qed.


Lemma isspace_of_ascii_isspace c :
  ascii_isspace c = true -> isspace ucd c = true.
Proof.
  intros H. now rewrite isspace_ascii by now apply ascii_isspace_is_ascii.
Qed.

Lemma spaces_are_space s :
  forallb ascii_isspace s = true -> forallb (isspace ucd) s = true.
Proof. apply forallb_impl, isspace_of_ascii_isspace. Qed.

(** *** Whitespace around the text *)

Lemma lstrip_app_space l s :
  forallb (isspace ucd) l = true -> lstrip ucd (l ++ s) = lstrip ucd s.
Proof.
  induction l as [|c l IH]; [reflexivity|]. cbn [forallb app lstrip].
  intros H. apply andb_true_iff in H. destruct H as [Hc Hl].
  rewrite Hc. now apply IH.
Qed.

Lemma rstrip_app_space s r :
  forallb (isspace ucd) r = true -> rstrip ucd (s ++ r) = rstrip ucd s.
Proof.
  intros H. unfold rstrip. rewrite rev_app_distr, lstrip_app_space;
    [reflexivity|].
  apply forallb_forall. intros c Hc. apply in_rev in Hc.
  revert c Hc. now apply forallb_forall.
Qed.

Lemma rstrip_nil : rstrip ucd [] = [].
Proof. reflexivity. Qed.

Lemma strip_app_space_r s r :
  forallb (isspace ucd) r = true -> strip ucd (s ++ r) = strip ucd s.
Proof.
  intros H. unfold strip. induction s as [|c s IH].
  - cbn [app]. now rewrite (lstrip_all_space ucd r H).
  - cbn [app lstrip]. destruct (isspace ucd c); [exact IH|].
    now apply (rstrip_app_space (c :: s)).
Qed.

Lemma strip_around l s r :
  forallb (isspace ucd) l = true -> forallb (isspace ucd) r = true ->
  strip ucd (l ++ s ++ r) = strip ucd s.
Proof.
  intros Hl Hr. rewrite app_assoc, strip_app_space_r by assumption.
  unfold strip. now rewrite lstrip_app_space.
Qed.

Lemma re_sub_class_special_spaces s :
  forallb (isspace ucd) s = true -> re_sub_class (special ucd) [] s = s.
Proof.
  intros H. rewrite re_sub_class_delete. apply filter_all.
  revert H. apply forallb_impl. intros c Hc.
  unfold special, retained. now rewrite Hc, orb_true_r, negb_involutive.
Qed.

Lemma step2_around l s r :
  forallb (isspace ucd) l = true -> forallb (isspace ucd) r = true ->
  step2 ucd (l ++ s ++ r) = step2 ucd s.
Proof.
  intros Hl Hr. unfold step2, re_sub_class.
  rewrite !flat_map_app. fold (re_sub_class (special ucd) [] l).
  fold (re_sub_class (special ucd) [] s).
  fold (re_sub_class (special ucd) [] r).
  rewrite (re_sub_class_special_spaces l), (re_sub_class_special_spaces r)
    by assumption.
  now apply strip_around.
Qed.

(** *** Letters and digits *)







End SanitizerMore.

Section SanitizerRuns.

Variable ucd : UnicodeData.

(** *** How step 3 treats words and the runs between them *)

Lemma re_sub_run_word cls repl a t :
  forallb (fun c => negb (cls c)) a = true ->
  re_sub_run cls repl false (a ++ t) = a ++ re_sub_run cls repl false t.
Proof.
  induction a as [|c a IH]; [reflexivity|]. cbn [forallb app re_sub_run].
  intros H. apply andb_true_iff in H. destruct H as [Hc Ha].
  apply negb_true_iff in Hc. now rewrite Hc, IH.
Qed.

Lemma re_sub_run_inside cls repl m t :
  forallb cls m = true ->
  re_sub_run cls repl true (m ++ t) = re_sub_run cls repl true t.
Proof.
  induction m as [|c m IH]; [reflexivity|]. cbn [forallb app re_sub_run].
  intros H. apply andb_true_iff in H. destruct H as [Hc Hm].
  now rewrite Hc, IH.
Qed.

Lemma re_sub_run_enter cls repl m t :
  m <> [] -> forallb cls m = true ->
  re_sub_run cls repl false (m ++ t) = repl ++ re_sub_run cls repl true t.
Proof.
  destruct m as [|c m]; [easy|]. intros _. cbn [forallb app re_sub_run].
  intros H. apply andb_true_iff in H. destruct H as [Hc Hm].
  now rewrite Hc, re_sub_run_inside.
Qed.

Lemma lstrip_word a t :
  a <> [] -> forallb (fun c => negb (isspace ucd c)) a = true ->
  lstrip ucd (a ++ t) = a ++ t.
Proof.
  destruct a as [|c a]; [easy|]. intros _. cbn [forallb app lstrip].
  intros H. apply andb_true_iff in H. destruct H as [Hc _].
  apply negb_true_iff in Hc. now rewrite Hc.
Qed.

Lemma strip_between_words a m b :
  a <> [] -> b <> [] ->
  forallb (fun c => negb (isspace ucd c)) a = true ->
  forallb (fun c => negb (isspace ucd c)) b = true ->
  strip ucd (a ++ m ++ b) = a ++ m ++ b.
Proof.
  intros Ha Hb Hsa Hsb. unfold strip, rstrip.
  rewrite lstrip_word by assumption.
  rewrite app_assoc, rev_app_distr, lstrip_word.
  - now rewrite <- rev_app_distr, rev_involutive.
  - intros E. apply (f_equal (@rev N)) in E. rewrite rev_involutive in E.
    now apply Hb.
  - apply forallb_forall. intros c Hc. apply in_rev in Hc.
    revert c Hc. now apply forallb_forall.
Qed.

(** *** Doubled underscores *)

Lemma has_double_cons u c s :
  has_double u (c :: s) = ((c =? u) && starts_with u s) || has_double u s.
Proof. destruct s; [now rewrite andb_false_r|reflexivity]. Qed.

Lemma starts_with_firstn u n s :
  starts_with u s = false -> starts_with u (firstn n s) = false.
Proof. destruct s, n; easy. Qed.

Lemma has_double_firstn u n s :
  has_double u s = false -> has_double u (firstn n s) = false.
Proof.
  revert n. induction s as [|c s IH]; intros [|n]; try easy.
  cbn [firstn]. rewrite !has_double_cons. intros H.
  apply orb_false_iff in H. destruct H as [H1 H2].
  rewrite (IH n H2), orb_false_r.
  apply andb_false_iff in H1. destruct H1 as [H1|H1].
  - now rewrite H1.
  - now rewrite (starts_with_firstn u n s H1), andb_false_r.
Qed.

Lemma re_sub_run_no_double cls u b s :
  existsb (N.eqb u) s = false ->
  has_double u (re_sub_run cls [u] b s) = false
  /\ (b = true -> starts_with u (re_sub_run cls [u] b s) = false).
Proof.
  revert b. induction s as [|c s IH]; intros b H; [easy|].
  cbn [existsb] in H. apply orb_false_iff in H. destruct H as [Hc Hs].
  rewrite N.eqb_sym in Hc.
  cbn [re_sub_run]. destruct (cls c).
  - destruct (IH true Hs) as [Hd Hh]. specialize (Hh eq_refl).
    destruct b; cbn [app].
    + easy.
    + split; [|easy]. now rewrite has_double_cons, Hh, Hd, andb_false_r.
  - destruct (IH false Hs) as [Hd _]. split.
    + now rewrite has_double_cons, Hc, Hd.
    + intros _. cbn [starts_with]. exact Hc.
Qed.

(** *** Lengths *)






(** *** Hyphens at the ends *)










End SanitizerRuns.

(** X1: a code point whose decomposition has nothing in ASCII leaves no
    trace: the file name is the same with it and without it. *)
Theorem sanitize_filename_ignores_unrepresentable
    (ucd : UnicodeData) (a b : str) (c : N) :
  filter is_ascii (decomposition ucd c) = [] ->
  sanitize_filename ucd (a ++ c :: b) = sanitize_filename ucd (a ++ b).
Proof.
  intros H. rewrite !sanitize_filename_value.
  change (a ++ c :: b) with (a ++ [c] ++ b).
  rewrite !ascii_part_app. unfold ascii_part at 2. cbn [flat_map].
  now rewrite app_nil_r, H.
Qed.

Lemma sanitize_filename_ignores_unrepresentable_example :
  sanitize_filename ucd_latin1 (lit "Tea" ++ 20013 :: lit " time")
  = sanitize_filename ucd_latin1 (lit "Tea" ++ lit " time").
Proof.
  apply (sanitize_filename_ignores_unrepresentable ucd_latin1). reflexivity.
Defined.

(** X2: ASCII whitespace before and after the text does not change the
    file name. *)
Theorem sanitize_filename_ignores_outer_whitespace
    (ucd : UnicodeData) (l S r : str) :
  forallb ascii_isspace l = true -> forallb ascii_isspace r = true ->
  sanitize_filename ucd (l ++ S ++ r) = sanitize_filename ucd S.
Proof.
  intros Hl Hr. rewrite !sanitize_filename_value, !ascii_part_app.
  rewrite (ascii_part_ascii ucd l), (ascii_part_ascii ucd r)
    by (eapply forallb_impl; [apply ascii_isspace_is_ascii|assumption]).
  rewrite step2_around by now apply spaces_are_space. reflexivity.
Qed.

Lemma sanitize_filename_ignores_outer_whitespace_example :
  sanitize_filename ucd_latin1 ([32; 9] ++ lit "Climate Change" ++ [10])
  = sanitize_filename ucd_latin1 (lit "Climate Change").
Proof.
  apply (sanitize_filename_ignores_outer_whitespace ucd_latin1); reflexivity.
Defined.



(** X4: between two words of [A-Za-z0-9_], a run of hyphens and ASCII
    whitespace of any length becomes one underscore. *)
Theorem sanitize_filename_joins_words (ucd : UnicodeData) (a m b : str) :
  a <> [] -> m <> [] -> b <> [] ->
  forallb safe a = true -> forallb safe b = true ->
  forallb (fun c => (c =? hyphen) || ascii_isspace c) m = true ->
  sanitize_filename ucd (a ++ m ++ b)
  = Ok (firstn 50 (a ++ [underscore] ++ b)).
Proof.
  intros Ha Hm Hb Hsa Hsb Hsm.
  assert (Hsep : forallb (separator ucd) m = true).
  { revert Hsm. apply forallb_impl. intros c Hc. unfold separator.
    apply orb_true_iff in Hc. destruct Hc as [Hc|Hc]; [now rewrite Hc|].
    now rewrite (isspace_of_ascii_isspace ucd c Hc), orb_true_r. }
  assert (Hma : forallb is_ascii m = true).
  { revert Hsm. apply forallb_impl. intros c Hc.
    apply orb_true_iff in Hc. destruct Hc as [Hc|Hc].
    - apply N.eqb_eq in Hc. now subst c.
    - now apply ascii_isspace_is_ascii. }
  assert (Hnsa : forallb (fun c => negb (isspace ucd c)) a = true).
  { revert Hsa. apply forallb_impl. intros c Hc.
    now rewrite safe_not_isspace. }
  assert (Hnsb : forallb (fun c => negb (isspace ucd c)) b = true).
  { revert Hsb. apply forallb_impl. intros c Hc.
    now rewrite safe_not_isspace. }
  assert (Hnpa : forallb (fun c => negb (separator ucd c)) a = true).
  { revert Hsa. apply forallb_impl. intros c Hc.
    now rewrite safe_not_separator. }
  assert (Hnpb : forallb (fun c => negb (separator ucd c)) b = true).
  { revert Hsb. apply forallb_impl. intros c Hc.
    now rewrite safe_not_separator. }
  rewrite sanitize_filename_value. f_equal. f_equal.
  rewrite ascii_part_ascii.
  2:{ rewrite !forallb_app, Hma.
      rewrite (forallb_impl safe is_ascii a safe_is_ascii Hsa).
      now rewrite (forallb_impl safe is_ascii b safe_is_ascii Hsb). }
  assert (H2 : step2 ucd (a ++ m ++ b) = a ++ m ++ b).
  { unfold step2. rewrite re_sub_class_delete, filter_all.
    - now apply strip_between_words.
    - rewrite !forallb_app. apply andb_true_iff. split; [|apply andb_true_iff; split].
      + revert Hsa. apply forallb_impl. intros c Hc. unfold special.
        now rewrite negb_involutive, safe_retained.
      + revert Hsep. apply forallb_impl. intros c Hc. unfold special.
        rewrite negb_involutive. unfold retained. unfold separator in Hc.
        apply orb_true_iff in Hc. destruct Hc as [Hc|Hc]; rewrite Hc;
          now rewrite ?orb_true_r.
      + revert Hsb. apply forallb_impl. intros c Hc. unfold special.
        now rewrite negb_involutive, safe_retained. }
  rewrite H2. unfold step3, re_sub_class_plus.
  rewrite re_sub_run_word by assumption.
  rewrite re_sub_run_enter by assumption.
  now rewrite re_sub_run_no_match.
Qed.

Lemma sanitize_filename_joins_words_example :
  sanitize_filename ucd_latin1 (lit "deja" ++ lit " - - " ++ lit "vu")
  = Ok (firstn 50 (lit "deja" ++ [underscore] ++ lit "vu")).
Proof.
  apply (sanitize_filename_joins_words ucd_latin1);
    try discriminate; reflexivity.
Defined.

(** X5: when step 1 leaves no underscore of the input, the file name has no
    two underscores in a row. *)
Theorem sanitize_filename_no_double_underscore
    (ucd : UnicodeData) (S : str) :
  existsb (N.eqb underscore) (ascii_part ucd S) = false ->
  exists out,
    sanitize_filename ucd S = Ok out /\ has_double underscore out = false.
Proof.
  intros H. eexists. split; [apply sanitize_filename_value|].
  apply has_double_firstn. unfold step3, re_sub_class_plus.
  apply re_sub_run_no_double.
  destruct (existsb (N.eqb underscore) (step2 ucd (ascii_part ucd S)))
    eqn:E; [|reflexivity].
  apply existsb_exists in E. destruct E as [c [Hc Hu]].
  apply In_step2 in Hc. destruct Hc as [Hc _].
  rewrite <- H. symmetry. apply existsb_exists. now exists c.
Qed.

Lemma sanitize_filename_no_double_underscore_example :
  exists out,
    sanitize_filename ucd_latin1 (lit "a - b  --  c") = Ok out
    /\ has_double underscore out = false.
Proof.
  apply (sanitize_filename_no_double_underscore ucd_latin1). reflexivity.
Defined.

(** X6: a result of [sanitize_filename] is its own first 50 characters, so
    the second slice, in [main], changes nothing. *)
Theorem sanitize_filename_slice_again (ucd : UnicodeData) (S out : str) :
  sanitize_filename ucd S = Ok out -> firstn 50 out = out.
Proof.
  rewrite sanitize_filename_value. intros H.
  assert (E : firstn 50 (step3 ucd (step2 ucd (ascii_part ucd S))) = out)
    by congruence.
  rewrite <- E. now rewrite firstn_firstn.
Qed.

Lemma sanitize_filename_slice_again_example :
  firstn 50 (repeat 120 50) = repeat 120 50.
Proof.
  apply (sanitize_filename_slice_again ucd_latin1 (repeat 120 200)).
  reflexivity.
Defined.



(** ** Further properties of the form shell *)


(** X8: whatever the topic and the provider, a file name offered for
    download has between 10 and 60 characters, all of them letters, digits,
    underscores or dots: no path separator and no character that Windows
    forbids. *)
Theorem download_file_name_safe
    (ucd : UnicodeData) (provider : nat -> str -> result str)
    (streamlit : event -> option exn)
    (inp : submission) (w : log) :
  exists out,
    main ucd provider streamlit inp w = (Ok tt, w ++ out)
    /\ forall label data file_name mime,
         In (DownloadButton label data file_name mime) out ->
         forallb file_name_char file_name = true
         /\ (10 <= List.length file_name <= 60)%nat.
Proof.
  eexists. split; [apply main_rendered|].
  intros label data file_name mime Hin.
  apply in_app_or in Hin. destruct Hin as [Hin|Hin].
  { unfold page_head in Hin. cbn [In] in Hin.
    repeat (destruct Hin as [Hin|Hin]; [discriminate Hin|]). easy. }
  unfold rendered in Hin. destruct (valid inp).
  - apply in_app_or in Hin. destruct Hin as [Hin|Hin].
    { cbn [In] in Hin.
      repeat (destruct Hin as [Hin|Hin]; [discriminate Hin|]). easy. }
    destruct (provider _ _) as [essay|e].
    + apply In_shown in Hin; [|reflexivity].
      unfold essay_page in Hin. cbn [In] in Hin.
      repeat (destruct Hin as [Hin|Hin]; [try discriminate Hin|]); [|easy].
      assert (E : file_name
                  = lit "essay_"
                    ++ firstn 50
                         (firstn 50
                            (step3 ucd
                               (step2 ucd
                                  (ascii_part ucd (essay_topic inp)))))
                    ++ lit ".txt") by congruence.
      rewrite E, firstn_firstn. clear Hin E. cbn [Nat.min]. split.
      * apply file_name_chars, sanitize_filename_value_safe.
      * rewrite !length_app.
        pose proof (firstn_le_length 50
          (step3 ucd (step2 ucd (ascii_part ucd (essay_topic inp))))) as Hle.
        change (List.length (lit "essay_")) with 6%nat.
        change (List.length (lit ".txt")) with 4%nat. lia.
    + cbn [In] in Hin.
      repeat (destruct Hin as [Hin|Hin]; [discriminate Hin|]). easy.
  - destruct (submit_button inp); cbn [In] in Hin; [|easy].
    destruct Hin as [Hin|Hin]; [discriminate Hin|easy].
Qed.

(** X9: over a whole session the log only grows, and the number of
    generation calls made is the number of valid submissions: one call for
    each, none for any other run. *)
Theorem session_calls
    (ucd : UnicodeData) (provider : nat -> str -> result str)
    (streamlit : event -> option exn)
    (inps : list submission) (w : log) :
  (exists out, session ucd provider streamlit inps w = w ++ out)
  /\ calls_made (session ucd provider streamlit inps w)
     = (calls_made w + List.length (filter valid inps))%nat.
Proof.
  revert w. induction inps as [|inp inps IH]; intros w.
  - split; [exists []; now rewrite app_nil_r|].
    cbn [session fold_left filter List.length]. now rewrite Nat.add_0_r.
  - unfold session in *. cbn [fold_left].
    destruct (IH (snd (main ucd provider streamlit inp w)))
      as [[out Hout] Hcalls].
    split.
    + rewrite Hout, main_rendered. cbn [snd].
      eexists. now rewrite <- !app_assoc.
    + rewrite Hcalls, calls_made_main. cbn [filter].
      destruct (valid inp); cbn [List.length]; lia.
Qed.

(** X10: a topic that is not empty but made of removable characters only
    (whitespace, punctuation, a script with nothing in ASCII) is a valid
    submission: the generation call is made, every download that the run
    offers is named "essay_.txt", and the essay is offered under that name
    whenever the five calls that show it return. *)
Theorem removable_topic_file_name
    (ucd : UnicodeData) (provider : nat -> str -> result str)
    (streamlit : event -> option exn)
    (inp : submission) (w : log) (essay : str) :
  submit_button inp = true -> essay_topic inp <> [] ->
  forallb (removable ucd) (essay_topic inp) = true ->
  provider (calls_made w) (prompt (essay_topic inp)) = Ok essay ->
  exists out,
    main ucd provider streamlit inp w = (Ok tt, w ++ out)
    /\ filter is_call out = [RunnerRun (prompt (essay_topic inp))]
    /\ (forall label data file_name mime,
          In (DownloadButton label data file_name mime) out ->
          file_name = lit "essay_.txt")
    /\ (forallb (renders streamlit)
          (essay_page (essay_topic inp) essay []) = true ->
        filter is_download out
        = [ DownloadButton
              (lit "Download Essay") essay (lit "essay_.txt")
              (lit "text/plain") ]).
Proof.
  intros Hs Ht Hr Hp. eexists.
  split; [apply (main_topic_ok _ _ _ _ _ essay); assumption|].
  rewrite step2_all_removed by now apply ascii_part_removable.
  change (firstn 50 (step3 ucd [])) with (@nil N).
  split; [|split].
  - rewrite !filter_app. change (filter is_call page_head) with (@nil event).
    cbn [filter is_call app]. now rewrite filter_shown.
  - intros label data file_name mime Hin.
    apply in_app_or in Hin. destruct Hin as [Hin|Hin].
    { unfold page_head in Hin. cbn [In] in Hin.
      repeat (destruct Hin as [Hin|Hin]; [discriminate Hin|]). easy. }
    apply in_app_or in Hin. destruct Hin as [Hin|Hin].
    { cbn [In] in Hin.
      repeat (destruct Hin as [Hin|Hin]; [discriminate Hin|]). easy. }
    apply In_shown in Hin; [|reflexivity].
    unfold essay_page in Hin. cbn [In] in Hin.
    repeat (destruct Hin as [Hin|Hin]; [try discriminate Hin|]); [|easy].
    assert (E : file_name = lit "essay_" ++ firstn 50 [] ++ lit ".txt")
      by congruence.
    now rewrite E.
  - intros Hrend. now rewrite (shown_all _ _ Hrend).
Qed.

Lemma removable_topic_file_name_example :
  exists out,
    main ucd_latin1 (fun _ _ => Ok (lit "An essay.")) (fun _ => None)
      {| essay_topic := [20013; 22269; 32; 33]; submit_button := true |} []
    = (Ok tt, [] ++ out)
    /\ filter is_call out = [RunnerRun (prompt [20013; 22269; 32; 33])]
    /\ (forall label data file_name mime,
          In (DownloadButton label data file_name mime) out ->
          file_name = lit "essay_.txt")
    /\ (forallb (renders (fun _ => None))
          (essay_page [20013; 22269; 32; 33] (lit "An essay.") []) = true ->
        filter is_download out
        = [ DownloadButton
              (lit "Download Essay") (lit "An essay.") (lit "essay_.txt")
              (lit "text/plain") ]).
Proof.
  apply (removable_topic_file_name ucd_latin1
           (fun _ _ => Ok (lit "An essay.")) (fun _ => None)
           {| essay_topic := [20013; 22269; 32; 33]; submit_button := true |}
           [] (lit "An essay."));
    [reflexivity | discriminate | reflexivity | reflexivity].
Defined.

(** ** Properties of the script *)

(** X11: when the environment has no key or an empty one, and the secrets
    have none or an empty one, the run shows the message about the missing
    key and stops: [main] is not run, whatever was submitted. *)
Theorem script_stops_without_key
    (ucd : UnicodeData) (provider : nat -> str -> result str)
    (streamlit : event -> option exn)
    (cfg : configuration) (inp : submission) (w : log) :
  truthy_opt (environ_key cfg) = false ->
  (forall k, secrets_key cfg = Ok k -> k = []) ->
  script ucd provider streamlit cfg inp w
  = ([ SetPageConfig (lit "Essay Agent") (lit ":globe_with_meridians:");
       MarkdownHtml style_sheet;
       LoadDotenv;
       StError api_key_not_found;
       StStop ],
     None).
Proof.
  intros He Hs. unfold script, openrouter_api_key. rewrite He.
  destruct (secrets_key cfg) as [k|e]; cbn [bind]; [|reflexivity].
  now rewrite (Hs k eq_refl).
Qed.

Lemma script_stops_without_key_example :
  script ucd_latin1 (fun _ _ => Ok (lit "An essay.")) (fun _ => None)
    {| environ_key := Some [];
       secrets_key := Raise (Exception (lit "No secrets found.")) |}
    {| essay_topic := lit "Rivers"; submit_button := true |} []
  = ([ SetPageConfig (lit "Essay Agent") (lit ":globe_with_meridians:");
       MarkdownHtml style_sheet;
       LoadDotenv;
       StError api_key_not_found;
       StStop ],
     None).
Proof.
  apply (script_stops_without_key ucd_latin1
           (fun _ _ => Ok (lit "An essay.")) (fun _ => None)
           {| environ_key := Some [];
              secrets_key := Raise (Exception (lit "No secrets found.")) |});
    [reflexivity | discriminate].
Defined.

(** X12: the script reaches [main] exactly when a non-empty key is found,
    in the environment or else in the secrets; a failing secrets store does
    not matter when the environment has the key. *)
Theorem script_runs_main_iff_key
    (ucd : UnicodeData) (provider : nat -> str -> result str)
    (streamlit : event -> option exn)
    (cfg : configuration) (inp : submission) (w : log) :
  (snd (script ucd provider streamlit cfg inp w)
   = Some (main ucd provider streamlit inp w)
   <-> truthy_opt (environ_key cfg) = true
       \/ exists k, k <> [] /\ secrets_key cfg = Ok k)
  /\ (snd (script ucd provider streamlit cfg inp w) = None
      \/ snd (script ucd provider streamlit cfg inp w)
         = Some (main ucd provider streamlit inp w)).
Proof.
  unfold script, openrouter_api_key.
  destruct (truthy_opt (environ_key cfg)) eqn:He.
  - rewrite He. cbn [negb snd]. split; [|now right].
    split; [now left|reflexivity].
  - destruct (secrets_key cfg) as [[|c k]|e];
      cbn [bind truthy_opt truthy negb snd].
    + split; [|now left]. split; [discriminate|].
      intros [H|[k [Hk H]]]; [discriminate|]. congruence.
    + split; [|now right]. split; [|reflexivity].
      intros _. right. exists (c :: k). split; [discriminate|reflexivity].
    + split; [|now left]. split; [discriminate|].
      intros [H|[k [Hk H]]]; discriminate.
Qed.

(** A run in which the essay cannot be shown: the provider returns "a"
    followed by a lone surrogate, and showing a text with a surrogate
    raises.  The banner, the rule and the heading are on the page, then the
    error message; no download is offered. *)
Example essay_not_shown :
  main ucd_latin1
    (fun _ _ => Ok [97; 55296])
    (fun e =>
       match e with
       | Markdown body =>
           if existsb (between 55296 57343) body
           then Some (Exception (lit "surrogates not allowed"))
           else None
       | _ => None
       end)
    {| essay_topic := lit "Rivers"; submit_button := true |} []
  = (Ok tt,
     page_head
     ++ [ Spinner (lit "Generating essay about 'Rivers'...");
          RunnerRun (prompt (lit "Rivers"));
          Success (lit "Your essay is ready!");
          Markdown (lit "---");
          Subheader (lit "Essay: Rivers");
          Error (lit "An error occurred: surrogates not allowed") ]).
Proof. reflexivity. Qed.
